(** * Resume GPT API gateway (src/main.py): a shallow embedding.

    Every endpoint of [main.py] is modelled as a computation in a small
    monad that threads the calls the gateway makes to its two external
    collaborators (the Supabase client and the OpenAI client) and to
    [uuid.uuid4] through an oracle, records each call together with its
    answer in a trace, and propagates Python exceptions as an explicit
    outcome.  FastAPI's conversion of the handler's outcome to an HTTP
    reply is modelled by [respond]. *)

From Stdlib Require Import String Ascii List ZArith Bool Lia.
Import ListNotations.
Open Scope string_scope.

(* ------------------------------------------------------------------ *)
(** ** Python values, dicts and strings *)

(** Scalar JSON/Python values as they appear in the rows exchanged with
    the database ([Dict[str, Any]] restricted to scalar columns). *)
Inductive Value : Type :=
| VStr (s : string)
| VInt (z : Z)
| VBool (b : bool)
| VNull.

(** A Python dict with string keys, in insertion order. *)
Definition row := list (string * Value).

(** [d.get(k)]: the value stored under key [k], if any. *)
Fixpoint dict_get {A} (k : string) (d : list (string * A)) : option A :=
  match d with
  | [] => None
  | (k', v) :: d' => if String.eqb k k' then Some v else dict_get k d'
  end.

Definition nl : string := String (ascii_of_nat 10) EmptyString.

(** ["sep".join(xs)] *)
Fixpoint join (sep : string) (xs : list string) : string :=
  match xs with
  | [] => ""
  | [x] => x
  | x :: xs' => x ++ sep ++ join sep xs'
  end.

(** Decimal digits of a positive integer, most significant first. *)
Fixpoint digits_of (fuel : nat) (n : Z) (acc : string) : string :=
  match fuel with
  | O => acc
  | S f =>
      let acc' := String (ascii_of_nat (48 + Z.to_nat (n mod 10))) acc in
      if Z.eqb (n / 10) 0 then acc' else digits_of f (n / 10) acc'
  end.

(** [str(n)] for a Python int. *)
Definition string_of_Z (z : Z) : string :=
  match z with
  | Z0 => "0"
  | Zpos p => digits_of (Pos.size_nat p) z ""
  | Zneg p => "-" ++ digits_of (Pos.size_nat p) (Zpos p) ""
  end.

(** [str(v)] (and f-string formatting) of a value. *)
Definition py_str (v : Value) : string :=
  match v with
  | VStr s => s
  | VInt z => string_of_Z z
  | VBool true => "True"
  | VBool false => "False"
  | VNull => "None"
  end.

(** [str.lower()] on the ASCII range. *)
Definition ascii_lower (c : ascii) : ascii :=
  let n := nat_of_ascii c in
  if (Nat.leb 65 n) && (Nat.leb n 90) then ascii_of_nat (n + 32) else c.

Fixpoint lower (s : string) : string :=
  match s with
  | EmptyString => EmptyString
  | String c s' => String (ascii_lower c) (lower s')
  end.

(** Truthiness of an optional string ([None] and [""] are falsy). *)
Definition truthy_str (o : option string) : bool :=
  match o with
  | Some s => negb (String.eqb s "")
  | None => false
  end.

(* ------------------------------------------------------------------ *)
(** ** Exceptions *)

(** Exceptions that can be raised inside a handler:
    - [ExtErr msg]: any exception raised by the Supabase or OpenAI client,
      whose [str] is [msg];
    - [HTTPExc code detail]: FastAPI's [HTTPException];
    - [KeyErr k]: [d[k]] on a dict without key [k];
    - [IndexErr]: [xs[0]] on an empty list;
    - [ValidationErr]: pydantic rejecting a response-model field. *)
Inductive Exc : Type :=
| ExtErr (msg : string)
| HTTPExc (status_code : Z) (detail : string)
| KeyErr (key : string)
| IndexErr
| ValidationErr.

(** [str(e)]; for [HTTPException], Starlette's [__str__] is
    [f"{status_code}: {detail}"]. *)
Definition exc_str (e : Exc) : string :=
  match e with
  | ExtErr msg => msg
  | HTTPExc c d => string_of_Z c ++ ": " ++ d
  | KeyErr k => "'" ++ k ++ "'"
  | IndexErr => "list index out of range"
  | ValidationErr => "validation error"  (* stands for pydantic's multi-line message *)
  end.

(* ------------------------------------------------------------------ *)
(** ** Requests sent to the collaborators *)

(** Query-builder calls chained after [.select(...)]: [.eq(col, v)],
    [.order(col)] / [.order(col, desc=True)] and [.limit(n)]. *)
Inductive Mod : Type :=
| MEq (column : string) (value : Value)
| MOrder (column : string) (desc : bool)
| MLimit (n : Z).

(** The body of [.insert(...)]: a dict or a list of dicts. *)
Inductive Payload : Type :=
| PDict (d : row)
| PList (ds : list row).

(** Arguments of [.rpc(name, {...})]. *)
Inductive RpcArg : Type :=
| AVal (v : Value)
| ADict (d : row).

(** One [.execute()] of a Supabase request builder. *)
Inductive DbReq : Type :=
| DSelect (table : string) (columns : string) (mods : list Mod)
| DInsert (table : string) (data : Payload)
| DUpdate (table : string) (data : row) (match_column : string) (match_value : Value)
| DDelete (table : string) (match_column : string) (match_value : Value)
| DRpc (name : string) (args : list (string * RpcArg)).

(** A chat message [{"role": r, "content": c}]. *)
Record Msg : Type := mkMsg { role : string; content : string }.

(** One recorded call and its answer ([inl msg]: the call raised an
    exception with text [msg]; [inr r]: the call returned [r]). *)
Inductive Entry : Type :=
| EUuid (u : string)
| EDb (q : DbReq) (answer : string + list row)
| EChat (model : string) (messages : list Msg) (answer : string + list string).

(** The world the gateway talks to.  Each answer may depend on all the
    calls made so far (the store is stateful).  [db_answer] gives the
    [.data] of the response ([list row]); [chat_answer] the contents of
    [response.choices[i].message.content] in order.  [str_int_answer] is
    the string-to-int coercion of the installed pydantic (pydantic 1 uses
    [int(s)], pydantic 2 its own parser; [None]: the string is refused);
    [main.py] pins no version, so it is left open. *)
Record Env : Type := mkEnv {
  uuid_answer : list Entry -> string;
  db_answer : list Entry -> DbReq -> string + list row;
  chat_answer : list Entry -> string -> list Msg -> string + list string;
  str_int_answer : string -> option Z
}.

(* ------------------------------------------------------------------ *)
(** ** The handler monad *)

Inductive Outcome (A : Type) : Type :=
| Ok (a : A)
| Raise (e : Exc).
Arguments Ok {A} a.
Arguments Raise {A} e.

(** A computation reads the world and the calls made before it, and
    yields an outcome together with the calls it made. *)
Definition M (A : Type) : Type := Env -> list Entry -> Outcome A * list Entry.

Definition ret {A} (a : A) : M A := fun _ _ => (Ok a, []).

Definition raise {A} (e : Exc) : M A := fun _ _ => (Raise e, []).

Definition bind {A B} (m : M A) (k : A -> M B) : M B :=
  fun env h =>
    match m env h with
    | (Ok a, t) => let (o, t') := k a env (h ++ t)%list in (o, (t ++ t')%list)
    | (Raise e, t) => (Raise e, t)
    end.

Notation "x <- m ;; k" := (bind m (fun x => k))
  (at level 61, m at next level, right associativity).

(** [str(uuid.uuid4())] *)
Definition uuid4 : M string :=
  fun env h => let u := uuid_answer env h in (Ok u, [EUuid u]).

(** [builder.execute().data] *)
Definition db_execute (q : DbReq) : M (list row) :=
  fun env h =>
    match db_answer env h q with
    | inl msg => (Raise (ExtErr msg), [EDb q (inl msg)])
    | inr rows => (Ok rows, [EDb q (inr rows)])
    end.

(** [openai.ChatCompletion.create(model=..., messages=...)], giving the
    message contents of its choices. *)
Definition chat_create (model : string) (messages : list Msg) : M (list string) :=
  fun env h =>
    match chat_answer env h model messages with
    | inl msg => (Raise (ExtErr msg), [EChat model messages (inl msg)])
    | inr cs => (Ok cs, [EChat model messages (inr cs)])
    end.

(** [try: body except Exception as e: raise HTTPException(500, str(e))] *)
Definition try_except_500 {A} (m : M A) : M A :=
  fun env h =>
    match m env h with
    | (Ok a, t) => (Ok a, t)
    | (Raise e, t) => (Raise (HTTPExc 500 (exc_str e)), t)
    end.

(** [xs[0]] *)
Definition index0 {A} (xs : list A) : M A :=
  match xs with
  | x :: _ => ret x
  | [] => raise IndexErr
  end.

(** [d[k]] *)
Definition getitem (d : row) (k : string) : M Value :=
  match dict_get k d with
  | Some v => ret v
  | None => raise (KeyErr k)
  end.

(** Pydantic's lax coercion of a value to an [int] field: ints are kept,
    [True]/[False] become 1/0, strings go through [str_to_int], [None] is
    refused. *)
Definition coerce_int (str_to_int : string -> option Z) (v : Value) : option Z :=
  match v with
  | VInt z => Some z
  | VBool b => Some (if b then 1%Z else 0%Z)
  | VStr s => str_to_int s
  | VNull => None
  end.

(** Pydantic validation of an [int] field of a response model. *)
Definition validate_int (v : Value) : M Z :=
  fun env h =>
    match coerce_int (str_int_answer env) v with
    | Some z => ret z env h
    | None => raise ValidationErr env h
    end.

(** [if cond: raise e] *)
Definition raise_if (cond : bool) (e : Exc) : M unit :=
  if cond then raise e else ret tt.

Definition is_nil {A} (xs : list A) : bool :=
  match xs with [] => true | _ => false end.

(* ------------------------------------------------------------------ *)
(** ** Configuration, requests and responses *)

(** The environment variables read at import time. *)
Record Config : Type := mkConfig {
  SUPABASE_URL : option string;
  SUPABASE_ANON_KEY : option string;
  OPENAI_API_KEY : option string
}.

(** [supabase] is a client iff [SUPABASE_URL and SUPABASE_KEY]. *)
Definition supabase_ready (cfg : Config) : bool :=
  truthy_str (SUPABASE_URL cfg) && truthy_str (SUPABASE_ANON_KEY cfg).

(** [openai.api_key] is truthy iff [OPENAI_API_KEY] is. *)
Definition openai_ready (cfg : Config) : bool :=
  truthy_str (OPENAI_API_KEY cfg).

Definition supabase_not_initialized : string :=
  "Supabase client not initialized. Check environment variables.".

Definition openai_not_configured : string :=
  "OpenAI API key not configured. Check environment variables.".

Module TailorResumeRequest.
Record t : Type := mk { user_id : string; job_id : Z }.
End TailorResumeRequest.

Module QueryParams.
Record t : Type := mk {
    table : string;
    select : string;
    filters : option row;
    limit : option Z;
    order : option (list (string * string))
  }.
End QueryParams.

Module InsertDataRequest.
Record t : Type := mk { table : string; data : Payload }.
End InsertDataRequest.

Module UpdateDataRequest.
Record t : Type := mk {
    table : string; data : row; match_column : string; match_value : Value }.
End UpdateDataRequest.

Module DeleteDataRequest.
Record t : Type := mk { table : string; match_column : string; match_value : Value }.
End DeleteDataRequest.

Module ExecuteRawSQLRequest.
Record t : Type := mk { query : string; params : option row }.
End ExecuteRawSQLRequest.

Module CreateTableRequest.
Record t : Type := mk {
    table_name : string;
    columns : list (string * string);
    primary_key : option string }.
End CreateTableRequest.

Module ResumeUploadRequest.
Record t : Type := mk { user_id : option string; content : string }.
End ResumeUploadRequest.

Module JobDescriptionUploadRequest.
Record t : Type := mk { description : string }.
End JobDescriptionUploadRequest.

(** The [data] field of a [GenericResponse]. *)
Inductive GData : Type :=
| GRows (rows : list row)
| GDict (d : row).

(** Response bodies: [{"message"}], [SampleDataResponse],
    [TailorResumeResponse] and [GenericResponse]. *)
Inductive Body : Type :=
| BWelcome (message : string)
| BSample (message : string) (user_id : string) (job_id : Z)
| BTailor (user_id : string) (job_id : Z) (tailored_resume : string)
| BGeneric (message : string) (data : GData).

(** The HTTP reply: a 200 with a body, or an error status with a detail. *)
Inductive Reply : Type :=
| HttpOk (b : Body)
| HttpErr (status_code : Z) (detail : string).

(** FastAPI: an [HTTPException] becomes its status and detail; any other
    escaping exception becomes a plain 500. *)
Definition respond (o : Outcome Body) : Reply :=
  match o with
  | Ok b => HttpOk b
  | Raise (HTTPExc c d) => HttpErr c d
  | Raise _ => HttpErr 500 "Internal Server Error"
  end.

(* ------------------------------------------------------------------ *)
(** ** Fixed texts *)

(** The sample resume of [insert_sample_data] (the triple-quoted literal,
    line by line). *)
Definition sample_base_resume : string :=
  join nl
    ["";
     "        John Doe";
     "        Software Engineer";
     "        ";
     "        Experience:";
     "        - Senior Software Engineer at Tech Corp (2020-Present)";
     "          * Led development of microservices architecture";
     "          * Implemented CI/CD pipelines";
     "          * Mentored junior developers";
     "        ";
     "        - Software Engineer at Startup Inc (2018-2020)";
     "          * Developed RESTful APIs";
     "          * Worked with React and Node.js";
     "          * Implemented automated testing";
     "        ";
     "        Skills:";
     "        - Python, JavaScript, React, Node.js";
     "        - AWS, Docker, Kubernetes";
     "        - Agile methodologies";
     "        "].

(** The sample job description of [insert_sample_data]. *)
Definition sample_job_description : string :=
  join nl
    ["";
     "        Senior Full Stack Developer";
     "        ";
     "        We are looking for a Senior Full Stack Developer to join our team. The ideal candidate will have:";
     "        ";
     "        Requirements:";
     "        - 5+ years of experience in software development";
     "        - Strong experience with React and Node.js";
     "        - Experience with microservices architecture";
     "        - Knowledge of AWS and cloud technologies";
     "        - Experience with CI/CD pipelines";
     "        - Strong problem-solving skills";
     "        ";
     "        Responsibilities:";
     "        - Develop and maintain web applications";
     "        - Design and implement microservices";
     "        - Work with cloud technologies";
     "        - Mentor junior developers";
     "        - Implement CI/CD pipelines";
     "        "].

(** The f-string prompt of [tailor_resume]. *)
Definition tailor_prompt (base_resume_content job_description : string) : string :=
  join nl
    ["";
     "        Please tailor the following resume to match the job description.";
     "        ";
     "        Base Resume:";
     "        " ++ base_resume_content;
     "        ";
     "        Job Description:";
     "        " ++ job_description;
     "        ";
     "        Please provide a tailored version of the resume that highlights relevant skills and experiences.";
     "        "].

Definition system_message : Msg :=
  mkMsg "system" "You are a professional resume writer.".

Definition chat_model : string := "gpt-3.5-turbo".

(* ------------------------------------------------------------------ *)
(** ** The query builder of [query_data] *)

(** The state of a Supabase select builder:
    [supabase.table(table).select(columns)] followed by chained calls. *)
Record QueryBuilder : Type := mkQB {
  qb_table : string;
  qb_columns : string;
  qb_mods : list Mod
}.

Definition table_select (table columns : string) : QueryBuilder :=
  mkQB table columns [].

Definition qb_push (q : QueryBuilder) (m : Mod) : QueryBuilder :=
  mkQB (qb_table q) (qb_columns q) (app (qb_mods q) [m]).

(** [query.eq(column, value)] *)
Definition qb_eq (q : QueryBuilder) (column : string) (value : Value) : QueryBuilder :=
  qb_push q (MEq column value).

(** [query.order(column)] / [query.order(column, desc=True)] *)
Definition qb_order (q : QueryBuilder) (column : string) (desc : bool) : QueryBuilder :=
  qb_push q (MOrder column desc).

(** [query.limit(n)] *)
Definition qb_limit (q : QueryBuilder) (n : Z) : QueryBuilder :=
  qb_push q (MLimit n).

Definition qb_request (q : QueryBuilder) : DbReq :=
  DSelect (qb_table q) (qb_columns q) (qb_mods q).

(** [if params.filters: for column, value in params.filters.items(): ...] *)
Definition apply_filters (filters : option row) (q : QueryBuilder) : QueryBuilder :=
  match filters with
  | Some ((_ :: _) as fs) =>
      fold_left (fun q '(column, value) => qb_eq q column value) fs q
  | _ => q
  end.

(** [if params.order: for column, direction in params.order.items(): ...] *)
Definition apply_order (order : option (list (string * string))) (q : QueryBuilder)
  : QueryBuilder :=
  match order with
  | Some ((_ :: _) as os) =>
      fold_left (fun q '(column, direction) =>
                   if String.eqb (lower direction) "asc"
                   then qb_order q column false
                   else qb_order q column true) os q
  | _ => q
  end.

(** [if params.limit: query = query.limit(params.limit)] *)
Definition apply_limit (limit : option Z) (q : QueryBuilder) : QueryBuilder :=
  match limit with
  | Some n => if Z.eqb n 0 then q else qb_limit q n
  | None => q
  end.

(** The request [query_data] executes. *)
Definition build_query (params : QueryParams.t) : DbReq :=
  qb_request
    (apply_limit (QueryParams.limit params)
       (apply_order (QueryParams.order params)
          (apply_filters (QueryParams.filters params)
             (table_select (QueryParams.table params) (QueryParams.select params))))).

(** The SQL text built by [create_table]. *)
Definition create_table_sql (request : CreateTableRequest.t) : string :=
  let columns_sql :=
    map (fun '(col_name, col_type) => col_name ++ " " ++ col_type)
        (CreateTableRequest.columns request) in
  let columns_sql :=
    if truthy_str (CreateTableRequest.primary_key request)
    then app columns_sql
           ["PRIMARY KEY (" ++ match CreateTableRequest.primary_key request with
                               | Some pk => pk | None => "" end ++ ")"]
    else columns_sql in
  let columns_str := join ", " columns_sql in
  "CREATE TABLE " ++ CreateTableRequest.table_name request ++ " (" ++ columns_str ++ ");".

(* ------------------------------------------------------------------ *)
(** ** Endpoints *)

Section Endpoints.

Variable cfg : Config.

(** [if not supabase: raise HTTPException(500, ...)] *)
Definition guard_supabase (k : M Body) : M Body :=
  if negb (supabase_ready cfg) then raise (HTTPExc 500 supabase_not_initialized) else k.

(** GET / *)
Definition root : M Body := ret (BWelcome "Welcome to Resume GPT API").

(** POST /insert-sample-data *)
Definition insert_sample_data : M Body :=
  guard_supabase
    (try_except_500
       (user_id <- uuid4 ;;
        _ <- db_execute (DInsert "resumes"
               (PDict [("user_id", VStr user_id); ("content", VStr sample_base_resume)])) ;;
        job_response <- db_execute (DInsert "job_descriptions"
               (PDict [("description", VStr sample_job_description)])) ;;
        first <- index0 job_response ;;
        job_id <- getitem first "id" ;;
        job_id' <- validate_int job_id ;;
        ret (BSample "Sample data inserted successfully" user_id job_id'))).

(** POST /tailor-resume *)
Definition tailor_resume (request : TailorResumeRequest.t) : M Body :=
  let uid := TailorResumeRequest.user_id request in
  let jid := TailorResumeRequest.job_id request in
  guard_supabase
    (if negb (openai_ready cfg) then raise (HTTPExc 500 openai_not_configured) else
     try_except_500
       (resume_data <- db_execute (DSelect "resumes" "*" [MEq "user_id" (VStr uid)]) ;;
        _ <- raise_if (is_nil resume_data) (HTTPExc 400 "User not found") ;;
        base_resume <- index0 resume_data ;;
        base_resume_id <- getitem base_resume "id" ;;
        base_resume_content <- getitem base_resume "content" ;;
        job_data <- db_execute (DSelect "job_descriptions" "*" [MEq "id" (VInt jid)]) ;;
        _ <- raise_if (is_nil job_data) (HTTPExc 400 "Job not found") ;;
        job_row <- index0 job_data ;;
        job_description <- getitem job_row "description" ;;
        choices <- chat_create chat_model
                     [system_message;
                      mkMsg "user" (tailor_prompt (py_str base_resume_content)
                                                  (py_str job_description))] ;;
        tailored_resume <- index0 choices ;;
        _ <- db_execute (DInsert "tailored_resumes"
               (PDict [("user_id", VStr uid); ("job_id", VInt jid);
                       ("base_resume_id", base_resume_id);
                       ("content", VStr tailored_resume)])) ;;
        ret (BTailor uid jid tailored_resume))).

(** GET /tables *)
Definition list_tables : M Body :=
  guard_supabase
    (try_except_500
       (result <- db_execute (DRpc "get_tables" []) ;;
        ret (BGeneric "Tables retrieved successfully" (GRows result)))).

(** GET /schema *)
Definition get_schema : M Body :=
  guard_supabase
    (try_except_500
       (result <- db_execute (DRpc "get_schema_info" []) ;;
        ret (BGeneric "Schema information retrieved successfully" (GRows result)))).

(** POST /query *)
Definition query_data (params : QueryParams.t) : M Body :=
  guard_supabase
    (try_except_500
       (result <- db_execute (build_query params) ;;
        ret (BGeneric ("Data retrieved from " ++ QueryParams.table params) (GRows result)))).

(** POST /insert *)
Definition insert_data (request : InsertDataRequest.t) : M Body :=
  guard_supabase
    (try_except_500
       (result <- db_execute (DInsert (InsertDataRequest.table request)
                                      (InsertDataRequest.data request)) ;;
        ret (BGeneric ("Data inserted into " ++ InsertDataRequest.table request)
                      (GRows result)))).

(** POST /update *)
Definition update_data (request : UpdateDataRequest.t) : M Body :=
  guard_supabase
    (try_except_500
       (result <- db_execute (DUpdate (UpdateDataRequest.table request)
                                      (UpdateDataRequest.data request)
                                      (UpdateDataRequest.match_column request)
                                      (UpdateDataRequest.match_value request)) ;;
        ret (BGeneric ("Data updated in " ++ UpdateDataRequest.table request)
                      (GRows result)))).

(** POST /delete *)
Definition delete_data (request : DeleteDataRequest.t) : M Body :=
  guard_supabase
    (try_except_500
       (result <- db_execute (DDelete (DeleteDataRequest.table request)
                                      (DeleteDataRequest.match_column request)
                                      (DeleteDataRequest.match_value request)) ;;
        ret (BGeneric ("Data deleted from " ++ DeleteDataRequest.table request)
                      (GRows result)))).

(** POST /execute-sql; [request.params or {}]. *)
Definition execute_raw_sql (request : ExecuteRawSQLRequest.t) : M Body :=
  let params := match ExecuteRawSQLRequest.params request with
                | Some ((_ :: _) as p) => p
                | _ => []
                end in
  guard_supabase
    (try_except_500
       (result <- db_execute (DRpc "run_sql_query"
                    [("sql_query", AVal (VStr (ExecuteRawSQLRequest.query request)));
                     ("params", ADict params)]) ;;
        ret (BGeneric "SQL query executed successfully" (GRows result)))).

(** POST /create-table *)
Definition create_table (request : CreateTableRequest.t) : M Body :=
  guard_supabase
    (try_except_500
       (result <- db_execute (DRpc "run_sql_query"
                    [("sql_query", AVal (VStr (create_table_sql request)))]) ;;
        ret (BGeneric ("Table " ++ CreateTableRequest.table_name request
                       ++ " created successfully") (GRows result)))).

(** [result.data[0]["id"] if result.data else None] *)
Definition first_id (rows : list row) : M Value :=
  match rows with
  | r :: _ => getitem r "id"
  | [] => ret VNull
  end.

(** POST /upload-resume; [request.user_id or str(uuid.uuid4())]. *)
Definition upload_resume (request : ResumeUploadRequest.t) : M Body :=
  guard_supabase
    (try_except_500
       (user_id <- (if truthy_str (ResumeUploadRequest.user_id request)
                    then ret (match ResumeUploadRequest.user_id request with
                              | Some u => u | None => "" end)
                    else uuid4) ;;
        result <- db_execute (DInsert "resumes"
                    (PDict [("user_id", VStr user_id);
                            ("content", VStr (ResumeUploadRequest.content request))])) ;;
        resume_id <- first_id result ;;
        ret (BGeneric "Resume uploaded successfully"
                      (GDict [("user_id", VStr user_id); ("resume_id", resume_id)])))).

(** POST /upload-job-description *)
Definition upload_job_description (request : JobDescriptionUploadRequest.t) : M Body :=
  guard_supabase
    (try_except_500
       (result <- db_execute (DInsert "job_descriptions"
                    (PDict [("description",
                             VStr (JobDescriptionUploadRequest.description request))])) ;;
        job_id <- first_id result ;;
        ret (BGeneric "Job description uploaded successfully"
                      (GDict [("job_id", job_id)])))).

End Endpoints.

(** The routes of [app], with a body already validated against the
    endpoint's pydantic request model; a body that fails it is answered
    422 by FastAPI before the endpoint runs, which this type leaves out. *)
Inductive Request : Type :=
| GetRoot
| PostInsertSampleData
| PostTailorResume (r : TailorResumeRequest.t)
| GetTables
| GetSchema
| PostQuery (p : QueryParams.t)
| PostInsert (r : InsertDataRequest.t)
| PostUpdate (r : UpdateDataRequest.t)
| PostDelete (r : DeleteDataRequest.t)
| PostExecuteSQL (r : ExecuteRawSQLRequest.t)
| PostCreateTable (r : CreateTableRequest.t)
| PostUploadResume (r : ResumeUploadRequest.t)
| PostUploadJobDescription (r : JobDescriptionUploadRequest.t).

Definition dispatch (cfg : Config) (req : Request) : M Body :=
  match req with
  | GetRoot => root
  | PostInsertSampleData => insert_sample_data cfg
  | PostTailorResume r => tailor_resume cfg r
  | GetTables => list_tables cfg
  | GetSchema => get_schema cfg
  | PostQuery p => query_data cfg p
  | PostInsert r => insert_data cfg r
  | PostUpdate r => update_data cfg r
  | PostDelete r => delete_data cfg r
  | PostExecuteSQL r => execute_raw_sql cfg r
  | PostCreateTable r => create_table cfg r
  | PostUploadResume r => upload_resume cfg r
  | PostUploadJobDescription r => upload_job_description cfg r
  end.

(** Serving one request: the HTTP reply and the calls made, given the
    configuration, the world and the calls made before. *)
Definition handle (cfg : Config) (req : Request) (env : Env) (h : list Entry)
  : Reply * list Entry :=
  let (o, t) := dispatch cfg req env h in (respond o, t).

(** The routes that use the Supabase client. *)
Definition uses_supabase (req : Request) : bool :=
  match req with GetRoot => false | _ => true end.

(* ------------------------------------------------------------------ *)
(** ** Predicates used in the statements *)

(** The error text of a recorded call that raised, if it did. *)
Definition entry_failure (e : Entry) : option string :=
  match e with
  | EDb _ (inl msg) => Some msg
  | EChat _ _ (inl msg) => Some msg
  | _ => None
  end.

Definition no_failure (t : list Entry) : Prop :=
  Forall (fun e => entry_failure e = None) t.

(** A computation whose calls either all succeed, or stop at the first
    failing one and end by raising that call's exception. *)
Definition Inv {A} (m : M A) : Prop :=
  forall env h,
    let (o, t) := m env h in
    no_failure t \/
    exists pre e msg, t = app pre [e] /\ no_failure pre /\
                      entry_failure e = Some msg /\ o = Raise (ExtErr msg).

(** The same, after the [except Exception] of an endpoint. *)
Definition Caught {A} (m : M A) : Prop :=
  forall env h,
    let (o, t) := m env h in
    no_failure t \/
    exists pre e msg, t = app pre [e] /\ no_failure pre /\
                      entry_failure e = Some msg /\ o = Raise (HTTPExc 500 msg).

(** The order calls among the chained builder calls of a select. *)
Definition order_mods (q : DbReq) : list Mod :=
  match q with
  | DSelect _ _ mods => filter (fun m => match m with MOrder _ _ => true | _ => false end) mods
  | _ => []
  end.

(** The chained calls of a select. *)
Definition select_mods (q : DbReq) : list Mod :=
  match q with
  | DSelect _ _ mods => mods
  | _ => []
  end.

(** The routes handled by [tailor_resume]. *)
Definition is_tailor (req : Request) : bool :=
  match req with PostTailorResume _ => true | _ => false end.

(* ------------------------------------------------------------------ *)
(** ** Concrete configurations and worlds *)

Definition cfg_full : Config :=
  mkConfig (Some "https://demo.supabase.co") (Some "anon-key") (Some "sk-demo").

Definition cfg_no_supabase : Config :=
  mkConfig None (Some "anon-key") (Some "sk-demo").

(** A string-to-int coercion accepting plain unsigned decimal numerals
    (a form both pydantic 1 and 2 accept). *)
Fixpoint decimal_value (s : string) (acc : Z) : option Z :=
  match s with
  | EmptyString => Some acc
  | String c s' =>
      let n := nat_of_ascii c in
      if Nat.leb 48 n && Nat.leb n 57
      then decimal_value s' (acc * 10 + Z.of_nat (n - 48))%Z
      else None
  end.

Definition decimal_of_string (s : string) : option Z :=
  match s with
  | EmptyString => None
  | _ => decimal_value s 0
  end.

(** A store holding one resume (user ["alice"], id 7) and one job
    description (id 1); inserts get id 42; the completion service answers
    [chat_reply]; [uuid4] yields ["generated-uuid"]. *)
Definition demo_env (chat_reply : string) : Env :=
  mkEnv
    (fun _ => "generated-uuid")
    (fun _ q =>
       match q with
       | DSelect t _ (MEq c v :: _) =>
           if String.eqb t "resumes" && String.eqb c "user_id" then
             match v with
             | VStr u => if String.eqb u "alice"
                         then inr [[("id", VInt 7); ("user_id", VStr "alice");
                                    ("content", VStr "Alice's resume")]]
                         else inr []
             | _ => inr []
             end
           else if String.eqb t "job_descriptions" && String.eqb c "id" then
             match v with
             | VInt 1 => inr [[("id", VInt 1); ("description", VStr "Backend role")]]
             | _ => inr []
             end
           else inr []
       | DInsert _ _ => inr [[("id", VInt 42)]]
       | _ => inr []
       end)
    (fun _ _ _ => inr [chat_reply])
    decimal_of_string.

(** [demo_env], except that inserting into [job_descriptions] fails with
    the store error ["insert failed"]. *)
Definition env_job_insert_fails : Env :=
  mkEnv (uuid_answer (demo_env "x"))
    (fun h q =>
       match q with
       | DInsert t _ => if String.eqb t "job_descriptions" then inl "insert failed"
                        else db_answer (demo_env "x") h q
       | _ => db_answer (demo_env "x") h q
       end)
    (chat_answer (demo_env "x"))
    (str_int_answer (demo_env "x")).

(** [demo_env], except that inserts return the new row's id as a
    string. *)
Definition env_str_ids : Env :=
  mkEnv (uuid_answer (demo_env "x"))
    (fun h q =>
       match q with
       | DInsert _ _ => inr [[("id", VStr "42")]]
       | _ => db_answer (demo_env "x") h q
       end)
    (chat_answer (demo_env "x"))
    (str_int_answer (demo_env "x")).

(** [demo_env], except that the completion service returns no choices. *)
Definition env_no_choices : Env :=
  mkEnv (uuid_answer (demo_env "x")) (db_answer (demo_env "x")) (fun _ _ _ => inr [])
    (str_int_answer (demo_env "x")).

(** [demo_env], except that inserts return rows without an ["id"]. *)
Definition env_insert_no_id : Env :=
  mkEnv (uuid_answer (demo_env "x"))
    (fun h q =>
       match q with
       | DInsert _ _ => inr [[("created", VBool true)]]
       | _ => db_answer (demo_env "x") h q
       end)
    (chat_answer (demo_env "x"))
    (str_int_answer (demo_env "x")).

(** Two job descriptions. *)
Definition two_jobs : list row :=
  [[("id", VInt 1); ("description", VStr "Backend role")];
   [("id", VInt 2); ("description", VStr "Frontend role")]].

(** The row count of the first [.limit] call of a select, if any. *)
Fixpoint limit_of (mods : list Mod) : option Z :=
  match mods with
  | [] => None
  | MLimit n :: _ => Some n
  | _ :: mods' => limit_of mods'
  end.

(** A store whose [job_descriptions] table holds [two_jobs] and which
    honours [.limit(n)] by returning the first [n] rows. *)
Definition env_two_jobs : Env :=
  mkEnv (uuid_answer (demo_env "x"))
    (fun _ q =>
       match q with
       | DSelect t _ mods =>
           if String.eqb t "job_descriptions" then
             match limit_of mods with
             | Some n => inr (firstn (Z.to_nat n) two_jobs)
             | None => inr two_jobs
             end
           else inr []
       | _ => inr []
       end)
    (chat_answer (demo_env "x"))
    (str_int_answer (demo_env "x")).

Definition is_chat (e : Entry) : bool :=
  match e with EChat _ _ _ => true | _ => false end.

(** The outcome of a computation is a value or an [HTTPException] with
    status 500. *)
Definition Only500 {A} (m : M A) : Prop :=
  forall env h,
    match fst (m env h) with
    | Ok _ => True
    | Raise (HTTPExc c _) => c = 500%Z
    | Raise _ => False
    end.

(** A computation that never calls the completion service. *)
Definition NoChat {A} (m : M A) : Prop :=
  forall env h, Forall (fun e => is_chat e = false) (snd (m env h)).

(** A recorded insert into [tailored_resumes]. *)
Definition is_tailored_insert (e : Entry) : bool :=
  match e with
  | EDb (DInsert t _) _ => String.eqb t "tailored_resumes"
  | _ => false
  end.

(** The reply of an endpoint that returns [GenericResponse(message,
    data=result.data)] for a single database call answered [ans]. *)
Definition generic_reply (message : string) (ans : string + list row) : Reply :=
  match ans with
  | inl msg => HttpErr 500 msg
  | inr rows => HttpOk (BGeneric message (GRows rows))
  end.

(* ================================================================== *)
(** * Proofs *)

(** ** The monad *)

Lemma Inv_ret {A} (a : A) : Inv (ret a).
Proof. intros env h; left; constructor. Qed.

Lemma Inv_raise {A} (e : Exc) : Inv (@raise A e).
Proof. intros env h; left; constructor. Qed.

Lemma Inv_uuid4 : Inv uuid4.
Proof. intros env h; left; repeat constructor. Qed.

Lemma Inv_db_execute q : Inv (db_execute q).
Proof.
  intros env h; unfold db_execute.
  destruct (db_answer env h q) as [msg|rows].
  - right; exists [], (EDb q (inl msg)), msg; repeat split; constructor.
  - left; repeat constructor.
Qed.

Lemma Inv_chat_create model msgs : Inv (chat_create model msgs).
Proof.
  intros env h; unfold chat_create.
  destruct (chat_answer env h model msgs) as [msg|cs].
  - right; exists [], (EChat model msgs (inl msg)), msg; repeat split; constructor.
  - left; repeat constructor.
Qed.

Lemma no_failure_app t1 t2 :
  no_failure t1 -> no_failure t2 -> no_failure (app t1 t2).
Proof. intros; apply Forall_app; auto. Qed.

Lemma Inv_bind {A B} (m : M A) (k : A -> M B) :
  Inv m -> (forall a, Inv (k a)) -> Inv (bind m k).
Proof.
  intros Hm Hk env h; unfold bind.
  specialize (Hm env h); destruct (m env h) as [[a|e] t].
  - destruct Hm as [Ht|(pre & e & msg & _ & _ & _ & Habs)]; [|discriminate].
    specialize (Hk a env (app h t)); destruct (k a env (app h t)) as [o t'].
    destruct Hk as [Ht'|(pre & e & msg & -> & Hpre & He & ->)].
    + left; apply no_failure_app; assumption.
    + right; exists (app t pre), e, msg; rewrite app_assoc; repeat split; auto.
      apply no_failure_app; assumption.
  - destruct Hm as [Ht|(pre & e' & msg & -> & Hpre & He & Heq)].
    + left; exact Ht.
    + injection Heq as ->; right; exists pre, e', msg; repeat split; auto.
Qed.

Lemma Inv_raise_if b e : Inv (raise_if b e).
Proof. destruct b; [apply Inv_raise | apply Inv_ret]. Qed.

Lemma Inv_index0 {A} (xs : list A) : Inv (index0 xs).
Proof. destruct xs; [apply Inv_raise | apply Inv_ret]. Qed.

Lemma Inv_getitem d k : Inv (getitem d k).
Proof. unfold getitem; destruct (dict_get k d); [apply Inv_ret | apply Inv_raise]. Qed.

Lemma Inv_validate_int v : Inv (validate_int v).
Proof.
  intros env h; unfold validate_int.
  destruct (coerce_int (str_int_answer env) v); [apply Inv_ret | apply Inv_raise].
Qed.

Lemma Inv_first_id rows : Inv (first_id rows).
Proof. destruct rows; [apply Inv_ret | apply Inv_getitem]. Qed.

Lemma Caught_try {A} (m : M A) : Inv m -> Caught (try_except_500 m).
Proof.
  intros Hm env h; unfold try_except_500.
  specialize (Hm env h); destruct (m env h) as [[a|e] t].
  - destruct Hm as [Ht|(pre & e & msg & _ & _ & _ & Habs)]; [left; exact Ht|discriminate].
  - destruct Hm as [Ht|(pre & e' & msg & -> & Hpre & He & Heq)].
    + left; exact Ht.
    + injection Heq as ->; right; exists pre, e', msg; repeat split; auto.
Qed.

Lemma Caught_ret {A} (a : A) : Caught (ret a).
Proof. intros env h; left; constructor. Qed.

Lemma Caught_raise {A} (e : Exc) : Caught (@raise A e).
Proof. intros env h; left; constructor. Qed.

Lemma Caught_guard cfg k : Caught k -> Caught (guard_supabase cfg k).
Proof.
  intros Hk; unfold guard_supabase; destruct (negb (supabase_ready cfg));
    [apply Caught_raise | exact Hk].
Qed.

Create HintDb inv.
#[export] Hint Resolve Inv_ret Inv_raise Inv_uuid4 Inv_db_execute Inv_chat_create
  Inv_raise_if Inv_index0 Inv_getitem Inv_validate_int Inv_first_id : inv.

Ltac inv_step :=
  match goal with
  | |- Inv (bind _ _) => apply Inv_bind; [ | intro ]
  | |- Inv (if ?b then _ else _) => destruct b
  | |- Inv (match ?x with _ => _ end) => destruct x
  | |- Caught (guard_supabase _ _) => apply Caught_guard
  | |- Caught (try_except_500 _) => apply Caught_try
  | |- Caught (if ?b then _ else _) => destruct b
  | |- Caught (raise _) => apply Caught_raise
  | |- _ => solve [eauto with inv]
  end.

Lemma Caught_dispatch cfg req : Caught (dispatch cfg req).
Proof.
  destruct req; simpl;
    unfold root, insert_sample_data, tailor_resume, list_tables, get_schema,
      query_data, insert_data, update_data, delete_data, execute_raw_sql,
      create_table, upload_resume, upload_job_description;
    try apply Caught_ret; repeat inv_step.
Qed.

(* ------------------------------------------------------------------ *)
(** ** Failure policy *)

(** C3: in every operation, a call to the Supabase or OpenAI client that
    raises is the last call made (nothing is retried or called after it),
    and the reply is a 500 whose detail is exactly that exception's text. *)
Theorem external_failure_reported_verbatim cfg req env h :
  let (reply, t) := handle cfg req env h in
  no_failure t \/
  exists pre e msg, t = app pre [e] /\ no_failure pre /\
                    entry_failure e = Some msg /\ reply = HttpErr 500 msg.
Proof.
  unfold handle.
  pose proof (Caught_dispatch cfg req env h) as Hc.
  destruct (dispatch cfg req env h) as [o t].
  destruct Hc as [Ht|(pre & e & msg & -> & Hpre & He & ->)].
  - left; exact Ht.
  - right; exists pre, e, msg; repeat split; auto.
Qed.

(** C7: with the Supabase client unconfigured, every operation that uses it
    fails with the 500 "Supabase client not initialized" configuration
    error before making any call; [tailor_resume] likewise fails with the
    500 "OpenAI API key not configured" error, before any call, when the
    OpenAI key is unconfigured. *)
Theorem unconfigured_client_fails_first cfg req env h :
  uses_supabase req = true ->
  supabase_ready cfg = false \/ (is_tailor req = true /\ openai_ready cfg = false) ->
  handle cfg req env h =
    (HttpErr 500 (if supabase_ready cfg then openai_not_configured
                  else supabase_not_initialized), []).
Proof.
  intros Huse Hcfg; unfold handle.
  destruct (supabase_ready cfg) eqn:Hsb.
  - destruct Hcfg as [Habs|[Htail Hoa]]; [discriminate|].
    destruct req; try discriminate; simpl.
    unfold tailor_resume, guard_supabase; rewrite Hsb, Hoa; reflexivity.
  - destruct req; try discriminate; simpl;
      unfold insert_sample_data, tailor_resume, list_tables, get_schema,
        query_data, insert_data, update_data, delete_data, execute_raw_sql,
        create_table, upload_resume, upload_job_description, guard_supabase;
      rewrite Hsb; reflexivity.
Qed.

Lemma unconfigured_client_fails_first_witness :
  uses_supabase PostInsertSampleData = true /\
  (supabase_ready cfg_no_supabase = false \/
   (is_tailor PostInsertSampleData = true /\ openai_ready cfg_no_supabase = false)) /\
  handle cfg_no_supabase PostInsertSampleData (demo_env "x") [] =
    (HttpErr 500 supabase_not_initialized, []).
Proof.
  split; [reflexivity|]; split; [left; reflexivity|].
  apply (unconfigured_client_fails_first cfg_no_supabase PostInsertSampleData
           (demo_env "x") []); [reflexivity | left; reflexivity].
Defined.

(* ------------------------------------------------------------------ *)
(** ** tailor_resume *)

(** C1: a user or job that is not in the store is rejected before the
    completion service is called, but the [HTTPException(400)] raised
    inside the [try] is caught by its [except Exception] and re-raised
    as a 500 whose detail is ["400: User not found"] (resp. ["400: Job
    not found"]), not as the declared 400 reply. *)
Theorem tailor_missing_rows_reply_500 :
  handle cfg_full (PostTailorResume (TailorResumeRequest.mk "bob" 1)) (demo_env "x") [] =
    (HttpErr 500 "400: User not found",
     [EDb (DSelect "resumes" "*" [MEq "user_id" (VStr "bob")]) (inr [])]) /\
  handle cfg_full (PostTailorResume (TailorResumeRequest.mk "alice" 2)) (demo_env "x") [] =
    (HttpErr 500 "400: Job not found",
     [EDb (DSelect "resumes" "*" [MEq "user_id" (VStr "alice")])
          (inr [[("id", VInt 7); ("user_id", VStr "alice");
                 ("content", VStr "Alice's resume")]]);
      EDb (DSelect "job_descriptions" "*" [MEq "id" (VInt 2)]) (inr [])]).
Proof. split; vm_compute; reflexivity. Qed.

(** C2 (amended): when both rows exist and the calls succeed (the
    completion returning at least one choice), [tailor_resume] looks the
    resume up by user_id and the job by id, sends one prompt embedding the
    resume content and the job description with the fixed system message
    "You are a professional resume writer." to the fixed model
    "gpt-3.5-turbo", takes the first choice's text [s] as the tailored
    resume, inserts exactly one [tailored_resumes] row (request user_id,
    request job_id, looked-up resume id, [s]) and replies
    {user_id, job_id, tailored_resume = s}; [s] may be empty. *)
Theorem tailor_resume_success cfg env h uid jid r rs rid cv jr jrs dv s ss ans :
  supabase_ready cfg = true ->
  openai_ready cfg = true ->
  db_answer env h (DSelect "resumes" "*" [MEq "user_id" (VStr uid)]) = inr (r :: rs) ->
  dict_get "id" r = Some rid ->
  dict_get "content" r = Some cv ->
  db_answer env
    (app h [EDb (DSelect "resumes" "*" [MEq "user_id" (VStr uid)]) (inr (r :: rs))])
    (DSelect "job_descriptions" "*" [MEq "id" (VInt jid)]) = inr (jr :: jrs) ->
  dict_get "description" jr = Some dv ->
  chat_answer env
    (app h [EDb (DSelect "resumes" "*" [MEq "user_id" (VStr uid)]) (inr (r :: rs));
            EDb (DSelect "job_descriptions" "*" [MEq "id" (VInt jid)]) (inr (jr :: jrs))])
    chat_model
    [system_message; mkMsg "user" (tailor_prompt (py_str cv) (py_str dv))] = inr (s :: ss) ->
  db_answer env
    (app h [EDb (DSelect "resumes" "*" [MEq "user_id" (VStr uid)]) (inr (r :: rs));
            EDb (DSelect "job_descriptions" "*" [MEq "id" (VInt jid)]) (inr (jr :: jrs));
            EChat chat_model
              [system_message; mkMsg "user" (tailor_prompt (py_str cv) (py_str dv))]
              (inr (s :: ss))])
    (DInsert "tailored_resumes"
       (PDict [("user_id", VStr uid); ("job_id", VInt jid);
               ("base_resume_id", rid); ("content", VStr s)])) = inr ans ->
  handle cfg (PostTailorResume (TailorResumeRequest.mk uid jid)) env h =
    (HttpOk (BTailor uid jid s),
     [EDb (DSelect "resumes" "*" [MEq "user_id" (VStr uid)]) (inr (r :: rs));
      EDb (DSelect "job_descriptions" "*" [MEq "id" (VInt jid)]) (inr (jr :: jrs));
      EChat chat_model
        [system_message; mkMsg "user" (tailor_prompt (py_str cv) (py_str dv))]
        (inr (s :: ss));
      EDb (DInsert "tailored_resumes"
             (PDict [("user_id", VStr uid); ("job_id", VInt jid);
                     ("base_resume_id", rid); ("content", VStr s)]))
          (inr ans)]).
Proof.
  intros Hsb Hoa Hresume Hid Hcontent Hjob Hdesc Hchat Hinsert.
  unfold handle; simpl; unfold tailor_resume, guard_supabase; simpl.
  rewrite Hsb, Hoa; simpl.
  unfold try_except_500, bind, db_execute, chat_create, raise_if, index0, getitem, ret.
  rewrite Hresume; simpl; rewrite Hid, Hcontent; simpl.
  repeat (rewrite app_nil_r || rewrite <- app_assoc); simpl.
  rewrite Hjob; simpl; rewrite Hdesc; simpl.
  repeat (rewrite app_nil_r || rewrite <- app_assoc); simpl.
  rewrite Hchat; simpl.
  repeat (rewrite app_nil_r || rewrite <- app_assoc); simpl.
  rewrite Hinsert; reflexivity.
Qed.

Lemma tailor_resume_success_witness :
  exists t,
    handle cfg_full (PostTailorResume (TailorResumeRequest.mk "alice" 1))
           (demo_env "Tailored resume") [] =
      (HttpOk (BTailor "alice" 1 "Tailored resume"), t).
Proof.
  eexists.
  apply (tailor_resume_success cfg_full (demo_env "Tailored resume") [] "alice" 1
           [("id", VInt 7); ("user_id", VStr "alice"); ("content", VStr "Alice's resume")]
           [] (VInt 7) (VStr "Alice's resume")
           [("id", VInt 1); ("description", VStr "Backend role")] [] (VStr "Backend role")
           "Tailored resume" [] [[("id", VInt 42)]]);
    reflexivity.
Defined.

(** C2 counterexample: nothing checks the completion's text, so an empty
    completion is stored and returned as an empty [tailored_resume]. *)
Lemma tailor_resume_empty_completion :
  fst (handle cfg_full (PostTailorResume (TailorResumeRequest.mk "alice" 1))
              (demo_env "") []) =
    HttpOk (BTailor "alice" 1 "").
Proof. vm_compute; reflexivity. Qed.

(* ------------------------------------------------------------------ *)
(** ** insert_sample_data *)

(** C4: a successful [insert_sample_data] draws one identifier from
    [uuid4], inserts exactly one [resumes] row with that user_id and the
    fixed sample resume, then exactly one [job_descriptions] row with the
    fixed sample description, and replies with the generated user_id and
    the id of the first row the store returned for the second insert, as
    pydantic's [int] field of [SampleDataResponse] coerces it. *)
Theorem insert_sample_data_success cfg env h b t :
  handle cfg PostInsertSampleData env h = (HttpOk b, t) ->
  exists u rs1 r rs2 v j,
    u = uuid_answer env h /\
    t = [EUuid u;
         EDb (DInsert "resumes"
                (PDict [("user_id", VStr u); ("content", VStr sample_base_resume)]))
             (inr rs1);
         EDb (DInsert "job_descriptions"
                (PDict [("description", VStr sample_job_description)]))
             (inr (r :: rs2))] /\
    dict_get "id" r = Some v /\
    coerce_int (str_int_answer env) v = Some j /\
    b = BSample "Sample data inserted successfully" u j.
Proof.
  unfold handle; simpl; unfold insert_sample_data, guard_supabase.
  destruct (supabase_ready cfg); simpl; [|discriminate].
  unfold try_except_500, bind, uuid4, db_execute, index0, getitem, validate_int,
    ret, raise; simpl.
  destruct (db_answer env _ (DInsert "resumes" _)) as [m1|rs1]; simpl; [discriminate|].
  destruct (db_answer env _ (DInsert "job_descriptions" _)) as [m2|[|r rs2]];
    simpl; try discriminate.
  destruct (dict_get "id" r) as [v|] eqn:Hid; simpl; [|discriminate].
  destruct (coerce_int (str_int_answer env) v) as [j|] eqn:Hj; simpl; [|discriminate].
  intro Heq; injection Heq as <- <-.
  exists (uuid_answer env h), rs1, r, rs2, v, j; repeat split; auto.
Qed.

(** The store answers the id ["42"]; the reply carries the int 42. *)
Lemma insert_sample_data_success_witness :
  exists u rs1 r rs2 v j,
    u = uuid_answer env_str_ids [] /\
    snd (handle cfg_full PostInsertSampleData env_str_ids []) =
      [EUuid u;
       EDb (DInsert "resumes"
              (PDict [("user_id", VStr u); ("content", VStr sample_base_resume)]))
           (inr rs1);
       EDb (DInsert "job_descriptions"
              (PDict [("description", VStr sample_job_description)]))
           (inr (r :: rs2))] /\
    dict_get "id" r = Some v /\
    coerce_int (str_int_answer env_str_ids) v = Some j /\
    BSample "Sample data inserted successfully" "generated-uuid" 42 =
      BSample "Sample data inserted successfully" u j.
Proof.
  apply (insert_sample_data_success cfg_full env_str_ids []
           (BSample "Sample data inserted successfully" "generated-uuid" 42)
           (snd (handle cfg_full PostInsertSampleData env_str_ids []))).
  vm_compute; reflexivity.
Defined.

(* ------------------------------------------------------------------ *)
(** ** query_data *)

Lemma fold_left_push {X} (f : X -> Mod) (g : QueryBuilder -> X -> QueryBuilder) :
  (forall q x, g q x = qb_push q (f x)) ->
  forall xs q, fold_left g xs q = mkQB (qb_table q) (qb_columns q) (app (qb_mods q) (map f xs)).
Proof.
  intros Hg xs; induction xs as [|x xs IH]; intro q; simpl.
  - destruct q; simpl; rewrite app_nil_r; reflexivity.
  - rewrite IH, Hg; simpl; rewrite <- app_assoc; reflexivity.
Qed.

Lemma apply_filters_mods filters q :
  apply_filters filters q =
    mkQB (qb_table q) (qb_columns q)
         (app (qb_mods q)
              (map (fun '(c, v) => MEq c v)
                   (match filters with Some fs => fs | None => [] end))).
Proof.
  destruct filters as [[|f fs]|];
    try (destruct q; simpl; rewrite app_nil_r; reflexivity).
  unfold apply_filters; apply (fold_left_push (fun '(c, v) => MEq c v)).
  intros q' [c v]; reflexivity.
Qed.

Lemma apply_order_mods order q :
  apply_order order q =
    mkQB (qb_table q) (qb_columns q)
         (app (qb_mods q)
              (map (fun '(c, d) => MOrder c (negb (String.eqb (lower d) "asc")))
                   (match order with Some os => os | None => [] end))).
Proof.
  destruct order as [[|o os]|];
    try (destruct q; simpl; rewrite app_nil_r; reflexivity).
  unfold apply_order; apply (fold_left_push (fun '(c, d) => MOrder c (negb (String.eqb (lower d) "asc")))).
  intros q' [c d]; destruct (String.eqb (lower d) "asc"); reflexivity.
Qed.

Lemma apply_limit_mods limit q :
  apply_limit limit q =
    mkQB (qb_table q) (qb_columns q)
         (app (qb_mods q)
              (match limit with
               | Some n => if Z.eqb n 0 then [] else [MLimit n]
               | None => []
               end)).
Proof.
  destruct q; destruct limit as [n|]; simpl; [destruct (Z.eqb n 0)|]; simpl;
    rewrite ?app_nil_r; reflexivity.
Qed.

(** The select that [query_data] executes: the filters as [.eq] calls,
    then the orders, then the limit unless it is falsy. *)
Lemma build_query_shape p :
  build_query p =
    DSelect (QueryParams.table p) (QueryParams.select p)
      (app (map (fun '(c, v) => MEq c v)
                (match QueryParams.filters p with Some fs => fs | None => [] end))
        (app (map (fun '(c, d) => MOrder c (negb (String.eqb (lower d) "asc")))
                  (match QueryParams.order p with Some os => os | None => [] end))
             (match QueryParams.limit p with
              | Some n => if Z.eqb n 0 then [] else [MLimit n]
              | None => []
              end))).
Proof.
  unfold build_query, qb_request.
  rewrite apply_limit_mods, apply_order_mods, apply_filters_mods; simpl.
  rewrite <- !app_assoc; reflexivity.
Qed.

Lemma handle_query cfg p env h :
  supabase_ready cfg = true ->
  handle cfg (PostQuery p) env h =
    (match db_answer env h (build_query p) with
     | inl msg => HttpErr 500 msg
     | inr rows =>
         HttpOk (BGeneric ("Data retrieved from " ++ QueryParams.table p) (GRows rows))
     end,
     [EDb (build_query p) (db_answer env h (build_query p))]).
Proof.
  intro Hsb; unfold handle; simpl; unfold query_data, guard_supabase; rewrite Hsb; simpl.
  unfold try_except_500, bind, db_execute, ret.
  destruct (db_answer env h (build_query p)); reflexivity.
Qed.

(** [query_data] executes exactly one select on the named
    table with the given column list, chaining one [.eq] per filter (all
    equalities, in the dict's order), then one [.order] per order entry
    (ascending iff the direction lowercases to "asc"), then [.limit(n)]
    when a non-zero limit is given (a limit of 0 is not applied); it
    replies with the store's rows unmodified, or with the store's error
    text as a 500. *)
Theorem query_data_request cfg p env h :
  supabase_ready cfg = true ->
  build_query p =
    DSelect (QueryParams.table p) (QueryParams.select p)
      (app (map (fun '(c, v) => MEq c v)
                (match QueryParams.filters p with Some fs => fs | None => [] end))
        (app (map (fun '(c, d) => MOrder c (negb (String.eqb (lower d) "asc")))
                  (match QueryParams.order p with Some os => os | None => [] end))
             (match QueryParams.limit p with
              | Some n => if Z.eqb n 0 then [] else [MLimit n]
              | None => []
              end))) /\
  handle cfg (PostQuery p) env h =
    (match db_answer env h (build_query p) with
     | inl msg => HttpErr 500 msg
     | inr rows =>
         HttpOk (BGeneric ("Data retrieved from " ++ QueryParams.table p) (GRows rows))
     end,
     [EDb (build_query p) (db_answer env h (build_query p))]).
Proof.
  intro Hsb; split; [apply build_query_shape | apply handle_query; exact Hsb].
Qed.

Lemma query_data_request_witness :
  let p := QueryParams.mk "job_descriptions" "id,description"
             (Some [("id", VInt 1)]) (Some 10%Z) (Some [("id", "DESC")]) in
  build_query p =
    DSelect "job_descriptions" "id,description"
      [MEq "id" (VInt 1); MOrder "id" true; MLimit 10] /\
  handle cfg_full (PostQuery p) (demo_env "x") [] =
    (HttpOk (BGeneric "Data retrieved from job_descriptions"
               (GRows [[("id", VInt 1); ("description", VStr "Backend role")]])),
     [EDb (DSelect "job_descriptions" "id,description"
             [MEq "id" (VInt 1); MOrder "id" true; MLimit 10])
          (inr [[("id", VInt 1); ("description", VStr "Backend role")]])]).
Proof.
  intro p.
  destruct (query_data_request cfg_full p (demo_env "x") [] eq_refl) as [H1 H2].
  split; [exact H1 | rewrite H2; reflexivity].
Defined.

(** C5: a provided limit is applied when it is 1, but a provided limit
    of 0 is dropped by [if params.limit:]: the select is issued with no
    [.limit] call and a store holding two matching rows returns both,
    not zero. *)
Theorem query_limit_zero_not_applied :
  fst (handle cfg_full
         (PostQuery (QueryParams.mk "job_descriptions" "*" None (Some 1%Z) None))
         env_two_jobs []) =
    HttpOk (BGeneric "Data retrieved from job_descriptions" (GRows (firstn 1 two_jobs))) /\
  build_query (QueryParams.mk "job_descriptions" "*" None (Some 0%Z) None) =
    DSelect "job_descriptions" "*" [] /\
  fst (handle cfg_full
         (PostQuery (QueryParams.mk "job_descriptions" "*" None (Some 0%Z) None))
         env_two_jobs []) =
    HttpOk (BGeneric "Data retrieved from job_descriptions" (GRows two_jobs)).
Proof. split; [|split]; vm_compute; reflexivity. Qed.

(** C9: a limit of 0 is falsy, so [query_data] with [limit = 0] issues no
    [.limit] call and behaves exactly as with no limit. *)
Theorem query_limit_zero_is_unlimited cfg p env h :
  QueryParams.limit p = Some 0%Z ->
  Forall (fun m => match m with MLimit _ => False | _ => True end)
         (select_mods (build_query p)) /\
  handle cfg (PostQuery p) env h =
    handle cfg (PostQuery (QueryParams.mk (QueryParams.table p) (QueryParams.select p)
                             (QueryParams.filters p) None (QueryParams.order p))) env h.
Proof.
  intro Hl; split.
  - rewrite build_query_shape, Hl; simpl; rewrite app_nil_r.
    apply Forall_app; split; apply Forall_forall; intros m Hm;
      apply in_map_iff in Hm; destruct Hm as [[c x] [<- _]]; exact I.
  - destruct p as [table select filters limit order]; simpl in Hl; subst limit.
    reflexivity.
Qed.

Lemma query_limit_zero_is_unlimited_witness :
  let p := QueryParams.mk "resumes" "*" (Some [("user_id", VStr "alice")]) (Some 0%Z) None in
  Forall (fun m => match m with MLimit _ => False | _ => True end)
         (select_mods (build_query p)) /\
  handle cfg_full (PostQuery p) (demo_env "x") [] =
    handle cfg_full (PostQuery (QueryParams.mk "resumes" "*"
                                  (Some [("user_id", VStr "alice")]) None None))
           (demo_env "x") [].
Proof.
  intro p; apply (query_limit_zero_is_unlimited cfg_full p (demo_env "x") []).
  reflexivity.
Defined.

(** C10: each order entry becomes [.order(column)] (ascending) exactly
    when its direction lowercases to "asc", and [.order(column,
    desc=True)] for any other direction. *)
Theorem query_order_directions p os :
  QueryParams.order p = Some os ->
  order_mods (build_query p) =
    map (fun '(c, d) => MOrder c (negb (String.eqb (lower d) "asc"))) os.
Proof.
  intro Ho; rewrite build_query_shape, Ho; simpl; clear Ho.
  rewrite !filter_app.
  assert (Hf : forall fs : row,
             filter (fun m => match m with MOrder _ _ => true | _ => false end)
                    (map (fun '(c, v) => MEq c v) fs) = []).
  { induction fs as [|[c v] fs IHf]; simpl; auto. }
  rewrite Hf; simpl.
  assert (Hl : filter (fun m => match m with MOrder _ _ => true | _ => false end)
                 (match QueryParams.limit p with
                  | Some n => if Z.eqb n 0 then [] else [MLimit n]
                  | None => []
                  end) = []).
  { destruct (QueryParams.limit p) as [n|]; [destruct (Z.eqb n 0)|]; reflexivity. }
  rewrite Hl, app_nil_r.
  induction os as [|[c d] os IH]; simpl; [reflexivity | rewrite IH; reflexivity].
Qed.

Lemma query_order_directions_witness :
  order_mods (build_query (QueryParams.mk "resumes" "*" None None
                             (Some [("a", "ASC"); ("b", "ascending"); ("c", "")]))) =
    [MOrder "a" false; MOrder "b" true; MOrder "c" true].
Proof.
  rewrite (query_order_directions
             (QueryParams.mk "resumes" "*" None None
                (Some [("a", "ASC"); ("b", "ascending"); ("c", "")]))
             [("a", "ASC"); ("b", "ascending"); ("c", "")] eq_refl).
  reflexivity.
Defined.

(* ------------------------------------------------------------------ *)
(** ** create_table *)

(** C8 (amended): [create_table] sends exactly one call to the
    [run_sql_query] procedure, whose [sql_query] is
    "CREATE TABLE {table_name} ({c1 t1, ..., cn tn});" with the column
    pairs in the mapping's order joined by ", ", followed by
    "PRIMARY KEY ({primary_key})" exactly when a non-empty primary key is
    given, and every identifier inserted verbatim. *)
Theorem create_table_request cfg req env h :
  supabase_ready cfg = true ->
  create_table_sql req =
    "CREATE TABLE " ++ CreateTableRequest.table_name req ++ " (" ++
    join ", " (app (map (fun '(c, t) => c ++ " " ++ t) (CreateTableRequest.columns req))
                   (match CreateTableRequest.primary_key req with
                    | Some pk => if String.eqb pk "" then []
                                 else ["PRIMARY KEY (" ++ pk ++ ")"]
                    | None => []
                    end)) ++ ");" /\
  snd (handle cfg (PostCreateTable req) env h) =
    [EDb (DRpc "run_sql_query" [("sql_query", AVal (VStr (create_table_sql req)))])
         (db_answer env h
            (DRpc "run_sql_query" [("sql_query", AVal (VStr (create_table_sql req)))]))].
Proof.
  intro Hsb; split.
  - unfold create_table_sql.
    destruct (CreateTableRequest.primary_key req) as [pk|]; simpl;
      [destruct (String.eqb pk "") eqn:E; simpl|]; rewrite ?app_nil_r; reflexivity.
  - unfold handle; simpl; unfold create_table, guard_supabase; rewrite Hsb; simpl.
    unfold try_except_500, bind, db_execute, ret.
    destruct (db_answer env h _); reflexivity.
Qed.

Lemma create_table_request_witness :
  let req := CreateTableRequest.mk "skills" [("id", "serial"); ("name", "text")] (Some "id") in
  create_table_sql req = "CREATE TABLE skills (id serial, name text, PRIMARY KEY (id));" /\
  snd (handle cfg_full (PostCreateTable req) (demo_env "x") []) =
    [EDb (DRpc "run_sql_query"
            [("sql_query", AVal (VStr "CREATE TABLE skills (id serial, name text, PRIMARY KEY (id));"))])
         (inr [])].
Proof.
  intro req.
  destruct (create_table_request cfg_full req (demo_env "x") [] eq_refl) as [H1 H2].
  split; [exact H1 | rewrite H2; reflexivity].
Defined.

(** C8 counterexample: an empty primary key is given but no PRIMARY KEY
    element is appended. *)
Lemma create_table_empty_primary_key :
  create_table_sql (CreateTableRequest.mk "t" [("a", "int")] (Some "")) =
    "CREATE TABLE t (a int);" /\
  create_table_sql (CreateTableRequest.mk "t" [("a", "int")] (Some "")) <>
    "CREATE TABLE t (a int, PRIMARY KEY ());".
Proof. split; [reflexivity | vm_compute; discriminate]. Qed.

(* ------------------------------------------------------------------ *)
(** ** upload_resume *)

(** C6 (amended): [upload_resume] makes exactly one database call, an
    insert (never an update or upsert) of one [resumes] row; when the
    request carries a non-empty user_id that string is the row's user_id
    verbatim and no identifier is generated; when user_id is absent or
    empty, one identifier is drawn from [uuid4] first and used instead. *)
Theorem upload_resume_insert cfg req env h :
  supabase_ready cfg = true ->
  let ins u := DInsert "resumes"
                 (PDict [("user_id", VStr u);
                         ("content", VStr (ResumeUploadRequest.content req))]) in
  let g := uuid_answer env h in
  snd (handle cfg (PostUploadResume req) env h) =
    match ResumeUploadRequest.user_id req with
    | Some u =>
        if String.eqb u "" then [EUuid g; EDb (ins g) (db_answer env (app h [EUuid g]) (ins g))]
        else [EDb (ins u) (db_answer env h (ins u))]
    | None => [EUuid g; EDb (ins g) (db_answer env (app h [EUuid g]) (ins g))]
    end.
Proof.
  intros Hsb ins g; unfold ins, g; clear ins g.
  unfold handle; simpl; unfold upload_resume, guard_supabase; rewrite Hsb; simpl.
  unfold try_except_500, bind, db_execute, uuid4, ret, first_id, getitem, raise.
  unfold truthy_str.
  destruct (ResumeUploadRequest.user_id req) as [u|]; simpl;
    [destruct (String.eqb u "") eqn:Eu; simpl|].
  all: rewrite ?app_nil_r; unfold ret.
  all: match goal with
       | |- context [db_answer ?e ?hh ?q] =>
           destruct (db_answer e hh q) as [msg|[|r rows]]; simpl;
           [reflexivity | reflexivity | destruct (dict_get "id" r); reflexivity]
       end.
Qed.

Lemma upload_resume_insert_witness :
  snd (handle cfg_full (PostUploadResume (ResumeUploadRequest.mk (Some "carol") "Carol's resume"))
              (demo_env "x") []) =
    [EDb (DInsert "resumes" (PDict [("user_id", VStr "carol");
                                    ("content", VStr "Carol's resume")]))
         (inr [[("id", VInt 42)]])].
Proof.
  rewrite (upload_resume_insert cfg_full
             (ResumeUploadRequest.mk (Some "carol") "Carol's resume") (demo_env "x") []
             eq_refl).
  reflexivity.
Defined.

(** C6 counterexample: an explicit but empty user_id is not used
    verbatim; a generated identifier replaces it. *)
Lemma upload_resume_empty_user_id :
  snd (handle cfg_full (PostUploadResume (ResumeUploadRequest.mk (Some "") "cv"))
              (demo_env "x") []) =
    [EUuid "generated-uuid";
     EDb (DInsert "resumes" (PDict [("user_id", VStr "generated-uuid");
                                    ("content", VStr "cv")]))
         (inr [[("id", VInt 42)]])].
Proof. vm_compute; reflexivity. Qed.

(* ================================================================== *)
(** * Further properties of the gateway *)

(** ** Status codes *)

Lemma Only500_try {A} (m : M A) : Only500 (try_except_500 m).
Proof.
  intros env h; unfold try_except_500.
  destruct (m env h) as [[a|e] t]; simpl; reflexivity || exact I.
Qed.

Lemma Only500_guard cfg k : Only500 k -> Only500 (guard_supabase cfg k).
Proof.
  intros Hk env h; unfold guard_supabase.
  destruct (negb (supabase_ready cfg)); [reflexivity | apply Hk].
Qed.

Lemma Only500_dispatch cfg req : Only500 (dispatch cfg req).
Proof.
  destruct req; simpl;
    unfold root, insert_sample_data, tailor_resume, list_tables, get_schema,
      query_data, insert_data, update_data, delete_data, execute_raw_sql,
      create_table, upload_resume, upload_job_description;
    try (intros env h; exact I);
    apply Only500_guard; try apply Only500_try.
  destruct (negb (openai_ready cfg)); [intros env h; reflexivity | apply Only500_try].
Qed.

(** Every error reply of an endpoint to a request whose body passed its
    pydantic request model has status 500: the declared 400 of
    [tailor_resume] never reaches the caller.  (A body that fails the
    request model gets FastAPI's 422 before any endpoint runs.) *)
Theorem error_replies_are_500 cfg req env h c d :
  fst (handle cfg req env h) = HttpErr c d -> c = 500%Z.
Proof.
  unfold handle; pose proof (Only500_dispatch cfg req env h) as H.
  destruct (dispatch cfg req env h) as [o t]; simpl in *.
  destruct o as [b|[msg|c' d'| | |]]; simpl; intro E; try discriminate;
    injection E as <- <-; try reflexivity; exact H.
Qed.

Lemma error_replies_are_500_witness :
  fst (handle cfg_full (PostTailorResume (TailorResumeRequest.mk "bob" 1)) (demo_env "x") [])
    = HttpErr 500 "400: User not found" /\ (500 = 500)%Z.
Proof.
  split; [vm_compute; reflexivity|].
  exact (error_replies_are_500 cfg_full (PostTailorResume (TailorResumeRequest.mk "bob" 1))
           (demo_env "x") [] 500 "400: User not found" eq_refl).
Defined.

(** ** The completion service *)

Lemma NoChat_ret {A} (a : A) : NoChat (ret a).
Proof. intros env h; constructor. Qed.

Lemma NoChat_raise {A} (e : Exc) : NoChat (@raise A e).
Proof. intros env h; constructor. Qed.

Lemma NoChat_uuid4 : NoChat uuid4.
Proof. intros env h; repeat constructor. Qed.

Lemma NoChat_db_execute q : NoChat (db_execute q).
Proof.
  intros env h; unfold db_execute; destruct (db_answer env h q); repeat constructor.
Qed.

Lemma NoChat_bind {A B} (m : M A) (k : A -> M B) :
  NoChat m -> (forall a, NoChat (k a)) -> NoChat (bind m k).
Proof.
  intros Hm Hk env h; unfold bind.
  specialize (Hm env h); destruct (m env h) as [[a|e] t]; simpl in *; [|exact Hm].
  specialize (Hk a env (app h t)); destruct (k a env (app h t)) as [o t']; simpl in *.
  apply Forall_app; auto.
Qed.

Lemma NoChat_try {A} (m : M A) : NoChat m -> NoChat (try_except_500 m).
Proof.
  intros Hm env h; unfold try_except_500; specialize (Hm env h).
  destruct (m env h) as [[a|e] t]; exact Hm.
Qed.

Lemma NoChat_guard cfg k : NoChat k -> NoChat (guard_supabase cfg k).
Proof.
  intros Hk; unfold guard_supabase; destruct (negb (supabase_ready cfg));
    [apply NoChat_raise | exact Hk].
Qed.

Lemma NoChat_raise_if b e : NoChat (raise_if b e).
Proof. destruct b; [apply NoChat_raise | apply NoChat_ret]. Qed.

Lemma NoChat_index0 {A} (xs : list A) : NoChat (index0 xs).
Proof. destruct xs; [apply NoChat_raise | apply NoChat_ret]. Qed.

Lemma NoChat_getitem d k : NoChat (getitem d k).
Proof. unfold getitem; destruct (dict_get k d); [apply NoChat_ret | apply NoChat_raise]. Qed.

Lemma NoChat_validate_int v : NoChat (validate_int v).
Proof.
  intros env h; unfold validate_int.
  destruct (coerce_int (str_int_answer env) v); [apply NoChat_ret | apply NoChat_raise].
Qed.

Lemma NoChat_first_id rows : NoChat (first_id rows).
Proof. destruct rows; [apply NoChat_ret | apply NoChat_getitem]. Qed.

Create HintDb nochat.
#[export] Hint Resolve NoChat_ret NoChat_raise NoChat_uuid4 NoChat_db_execute
  NoChat_raise_if NoChat_index0 NoChat_getitem NoChat_validate_int NoChat_first_id
  : nochat.

Ltac nochat_step :=
  match goal with
  | |- NoChat (bind _ _) => apply NoChat_bind; [ | intro ]
  | |- NoChat (if ?b then _ else _) => destruct b
  | |- NoChat (match ?x with _ => _ end) => destruct x
  | |- NoChat (guard_supabase _ _) => apply NoChat_guard
  | |- NoChat (try_except_500 _) => apply NoChat_try
  | |- _ => solve [eauto with nochat]
  end.

(** Only [tailor_resume] calls the completion service: every other
    endpoint's calls are to the database or to [uuid4]. *)
Theorem only_tailor_calls_completion cfg req env h :
  is_tailor req = false ->
  Forall (fun e => is_chat e = false) (snd (handle cfg req env h)).
Proof.
  intro Ht; unfold handle.
  enough (Hn : NoChat (dispatch cfg req)).
  { specialize (Hn env h); destruct (dispatch cfg req env h); exact Hn. }
  destruct req; try discriminate; simpl;
    unfold root, insert_sample_data, list_tables, get_schema,
      query_data, insert_data, update_data, delete_data, execute_raw_sql,
      create_table, upload_resume, upload_job_description;
    repeat nochat_step.
Qed.

Lemma only_tailor_calls_completion_witness :
  Forall (fun e => is_chat e = false)
         (snd (handle cfg_full PostInsertSampleData (demo_env "x") [])).
Proof.
  apply (only_tailor_calls_completion cfg_full PostInsertSampleData (demo_env "x") []).
  reflexivity.
Defined.

(** ** Order of the calls of tailor_resume *)

(** Case analysis on every answer of the world inside a run. *)
Ltac split_answers :=
  repeat (simpl; match goal with
   | |- context [db_answer ?e ?hh ?q] => destruct (db_answer e hh q) as [?|[|? ?]]
   | |- context [chat_answer ?e ?hh ?m ?ms] => destruct (chat_answer e hh m ms) as [?|[|? ?]]
   | |- context [dict_get ?k ?r] => destruct (dict_get k r)
   end).

Ltac open_tailor cfg :=
  unfold handle; simpl; unfold tailor_resume, guard_supabase;
  destruct (supabase_ready cfg), (openai_ready cfg); simpl;
  unfold try_except_500, bind, db_execute, chat_create, raise_if, index0, getitem,
    ret, raise.

(** [tailor_resume] calls the completion service only after the resume
    lookup by user_id and the job lookup by id, made in that order as its
    first two calls, both returned at least one row. *)
Theorem tailor_completion_after_lookups cfg r env h :
  existsb is_chat (snd (handle cfg (PostTailorResume r) env h)) = true ->
  exists rr rrs jr jrs rest,
    snd (handle cfg (PostTailorResume r) env h) =
      EDb (DSelect "resumes" "*" [MEq "user_id" (VStr (TailorResumeRequest.user_id r))])
          (inr (rr :: rrs)) ::
      EDb (DSelect "job_descriptions" "*" [MEq "id" (VInt (TailorResumeRequest.job_id r))])
          (inr (jr :: jrs)) :: rest.
Proof.
  open_tailor cfg; split_answers;
    intro H; try discriminate H; do 5 eexists; reflexivity.
Qed.

Lemma tailor_completion_after_lookups_witness :
  exists rr rrs jr jrs rest,
    snd (handle cfg_full (PostTailorResume (TailorResumeRequest.mk "alice" 1))
                (demo_env "x") []) =
      EDb (DSelect "resumes" "*" [MEq "user_id" (VStr "alice")]) (inr (rr :: rrs)) ::
      EDb (DSelect "job_descriptions" "*" [MEq "id" (VInt 1)]) (inr (jr :: jrs)) :: rest.
Proof.
  apply (tailor_completion_after_lookups cfg_full (TailorResumeRequest.mk "alice" 1)
           (demo_env "x") []).
  vm_compute; reflexivity.
Defined.

(** [tailor_resume] writes a [tailored_resumes] row only as its fourth
    and last call: after the two lookups returned rows and right after a
    completion call that returned at least one choice, whose first choice
    is the stored content; a failed completion, or one with no choices,
    writes nothing. *)
Theorem tailor_store_after_completion cfg r env h :
  existsb is_tailored_insert (snd (handle cfg (PostTailorResume r) env h)) = true ->
  let uid := TailorResumeRequest.user_id r in
  let jid := TailorResumeRequest.job_id r in
  exists rr rrs rid jr jrs msgs s ss a,
    dict_get "id" rr = Some rid /\
    snd (handle cfg (PostTailorResume r) env h) =
      [EDb (DSelect "resumes" "*" [MEq "user_id" (VStr uid)]) (inr (rr :: rrs));
       EDb (DSelect "job_descriptions" "*" [MEq "id" (VInt jid)]) (inr (jr :: jrs));
       EChat chat_model msgs (inr (s :: ss));
       EDb (DInsert "tailored_resumes"
              (PDict [("user_id", VStr uid); ("job_id", VInt jid);
                      ("base_resume_id", rid); ("content", VStr s)])) a].
Proof.
  open_tailor cfg;
  repeat (simpl; match goal with
   | |- context [db_answer ?e ?hh ?q] => destruct (db_answer e hh q) as [?|[|? ?]]
   | |- context [chat_answer ?e ?hh ?m ?ms] => destruct (chat_answer e hh m ms) as [?|[|? ?]]
   | |- context [dict_get ?k ?r] => destruct (dict_get k r) eqn:?
   end);
    intro H; try discriminate H; do 9 eexists; (split; [eassumption | reflexivity]).
Qed.

Lemma tailor_store_after_completion_witness :
  exists rr rrs rid jr jrs msgs s ss a,
    dict_get "id" rr = Some rid /\
    snd (handle cfg_full (PostTailorResume (TailorResumeRequest.mk "alice" 1))
                (demo_env "x") []) =
      [EDb (DSelect "resumes" "*" [MEq "user_id" (VStr "alice")]) (inr (rr :: rrs));
       EDb (DSelect "job_descriptions" "*" [MEq "id" (VInt 1)]) (inr (jr :: jrs));
       EChat chat_model msgs (inr (s :: ss));
       EDb (DInsert "tailored_resumes"
              (PDict [("user_id", VStr "alice"); ("job_id", VInt 1);
                      ("base_resume_id", rid); ("content", VStr s)])) a].
Proof.
  exact (tailor_store_after_completion cfg_full (TailorResumeRequest.mk "alice" 1)
           (demo_env "x") [] eq_refl).
Defined.

(** ** Edge cases of tailor_resume *)

(** When the first resume row has no ["id"] or no ["content"] key,
    [tailor_resume] replies 500 with the [KeyError] text (["'id'"] checked
    first) right after the resume lookup, without looking up the job. *)
Theorem tailor_resume_missing_key cfg env h uid jid r rs :
  supabase_ready cfg = true ->
  openai_ready cfg = true ->
  db_answer env h (DSelect "resumes" "*" [MEq "user_id" (VStr uid)]) = inr (r :: rs) ->
  dict_get "id" r = None \/ dict_get "content" r = None ->
  handle cfg (PostTailorResume (TailorResumeRequest.mk uid jid)) env h =
    (HttpErr 500 (match dict_get "id" r with Some _ => "'content'" | None => "'id'" end),
     [EDb (DSelect "resumes" "*" [MEq "user_id" (VStr uid)]) (inr (r :: rs))]).
Proof.
  intros Hsb Hoa Hres Hkey.
  unfold handle; simpl; unfold tailor_resume, guard_supabase; rewrite Hsb, Hoa; simpl.
  unfold try_except_500, bind, db_execute, raise_if, index0, getitem, ret, raise.
  rewrite Hres; simpl.
  destruct (dict_get "id" r) as [v|]; simpl; [|reflexivity].
  destruct Hkey as [Habs|Hc]; [discriminate|rewrite Hc; reflexivity].
Qed.

Lemma tailor_resume_missing_key_witness :
  handle cfg_full (PostTailorResume (TailorResumeRequest.mk "dave" 1))
    (mkEnv (fun _ => "u")
           (fun _ _ => inr [[("user_id", VStr "dave"); ("content", VStr "cv")]])
           (fun _ _ _ => inr ["x"]) decimal_of_string) [] =
    (HttpErr 500 "'id'",
     [EDb (DSelect "resumes" "*" [MEq "user_id" (VStr "dave")])
          (inr [[("user_id", VStr "dave"); ("content", VStr "cv")]])]).
Proof.
  apply (tailor_resume_missing_key cfg_full
           (mkEnv (fun _ => "u")
                  (fun _ _ => inr [[("user_id", VStr "dave"); ("content", VStr "cv")]])
                  (fun _ _ _ => inr ["x"]) decimal_of_string) [] "dave" 1
           [("user_id", VStr "dave"); ("content", VStr "cv")] []);
    [reflexivity | reflexivity | reflexivity | left; reflexivity].
Defined.

(** When the completion call succeeds with no choices,
    [response.choices[0]] raises: the reply is 500 "list index out of
    range" and no tailored row is written. *)
Theorem tailor_resume_no_choices cfg env h uid jid r rs rid cv jr jrs dv :
  supabase_ready cfg = true ->
  openai_ready cfg = true ->
  db_answer env h (DSelect "resumes" "*" [MEq "user_id" (VStr uid)]) = inr (r :: rs) ->
  dict_get "id" r = Some rid ->
  dict_get "content" r = Some cv ->
  db_answer env
    (app h [EDb (DSelect "resumes" "*" [MEq "user_id" (VStr uid)]) (inr (r :: rs))])
    (DSelect "job_descriptions" "*" [MEq "id" (VInt jid)]) = inr (jr :: jrs) ->
  dict_get "description" jr = Some dv ->
  chat_answer env
    (app h [EDb (DSelect "resumes" "*" [MEq "user_id" (VStr uid)]) (inr (r :: rs));
            EDb (DSelect "job_descriptions" "*" [MEq "id" (VInt jid)]) (inr (jr :: jrs))])
    chat_model
    [system_message; mkMsg "user" (tailor_prompt (py_str cv) (py_str dv))] = inr [] ->
  handle cfg (PostTailorResume (TailorResumeRequest.mk uid jid)) env h =
    (HttpErr 500 "list index out of range",
     [EDb (DSelect "resumes" "*" [MEq "user_id" (VStr uid)]) (inr (r :: rs));
      EDb (DSelect "job_descriptions" "*" [MEq "id" (VInt jid)]) (inr (jr :: jrs));
      EChat chat_model
        [system_message; mkMsg "user" (tailor_prompt (py_str cv) (py_str dv))]
        (inr [])]).
Proof.
  intros Hsb Hoa Hresume Hid Hcontent Hjob Hdesc Hchat.
  unfold handle; simpl; unfold tailor_resume, guard_supabase; simpl.
  rewrite Hsb, Hoa; simpl.
  unfold try_except_500, bind, db_execute, chat_create, raise_if, index0, getitem, ret.
  rewrite Hresume; simpl; rewrite Hid, Hcontent; simpl.
  repeat (rewrite app_nil_r || rewrite <- app_assoc); simpl.
  rewrite Hjob; simpl; rewrite Hdesc; simpl.
  repeat (rewrite app_nil_r || rewrite <- app_assoc); simpl.
  rewrite Hchat; reflexivity.
Qed.

Lemma tailor_resume_no_choices_witness :
  fst (handle cfg_full (PostTailorResume (TailorResumeRequest.mk "alice" 1))
              env_no_choices []) = HttpErr 500 "list index out of range".
Proof.
  rewrite (tailor_resume_no_choices cfg_full env_no_choices [] "alice" 1
             [("id", VInt 7); ("user_id", VStr "alice"); ("content", VStr "Alice's resume")]
             [] (VInt 7) (VStr "Alice's resume")
             [("id", VInt 1); ("description", VStr "Backend role")] [] (VStr "Backend role"));
    reflexivity.
Defined.

(** ** insert_sample_data does not roll back *)

(** When the resume insert succeeds and the job-description insert fails,
    [insert_sample_data] replies 500 with the store's error text and
    makes no further call: the resume row it wrote is left in place. *)
Theorem insert_sample_data_no_rollback cfg env h rs1 msg :
  supabase_ready cfg = true ->
  db_answer env (app h [EUuid (uuid_answer env h)])
    (DInsert "resumes" (PDict [("user_id", VStr (uuid_answer env h));
                               ("content", VStr sample_base_resume)])) = inr rs1 ->
  db_answer env
    (app h [EUuid (uuid_answer env h);
            EDb (DInsert "resumes" (PDict [("user_id", VStr (uuid_answer env h));
                                           ("content", VStr sample_base_resume)]))
                (inr rs1)])
    (DInsert "job_descriptions" (PDict [("description", VStr sample_job_description)]))
    = inl msg ->
  handle cfg PostInsertSampleData env h =
    (HttpErr 500 msg,
     [EUuid (uuid_answer env h);
      EDb (DInsert "resumes" (PDict [("user_id", VStr (uuid_answer env h));
                                     ("content", VStr sample_base_resume)]))
          (inr rs1);
      EDb (DInsert "job_descriptions" (PDict [("description", VStr sample_job_description)]))
          (inl msg)]).
Proof.
  intros Hsb Hr Hj.
  unfold handle; simpl; unfold insert_sample_data, guard_supabase; rewrite Hsb; simpl.
  unfold try_except_500, bind, uuid4, db_execute, ret; simpl.
  rewrite Hr; simpl.
  repeat (rewrite app_nil_r || rewrite <- app_assoc); simpl.
  rewrite Hj; reflexivity.
Qed.

Lemma insert_sample_data_no_rollback_witness :
  fst (handle cfg_full PostInsertSampleData env_job_insert_fails []) =
    HttpErr 500 "insert failed".
Proof.
  rewrite (insert_sample_data_no_rollback cfg_full env_job_insert_fails [] [[("id", VInt 42)]]
             "insert failed"); reflexivity.
Defined.

(** ** Replies of the upload endpoints *)

(** [upload_resume] replies with the user_id it inserted (the given
    non-empty one, or the generated one) and with the id of the first row
    the store returned for the insert, or [None] when the store returned
    no row; a first row without an ["id"] key gives a 500 "'id'" even
    though the insert succeeded. *)
Theorem upload_resume_reply cfg req env h rows :
  supabase_ready cfg = true ->
  db_answer env
    (if truthy_str (ResumeUploadRequest.user_id req) then h
     else app h [EUuid (uuid_answer env h)])
    (DInsert "resumes"
       (PDict [("user_id",
                VStr (if truthy_str (ResumeUploadRequest.user_id req)
                      then match ResumeUploadRequest.user_id req with
                           | Some u => u | None => "" end
                      else uuid_answer env h));
               ("content", VStr (ResumeUploadRequest.content req))])) = inr rows ->
  fst (handle cfg (PostUploadResume req) env h) =
    let u := if truthy_str (ResumeUploadRequest.user_id req)
             then match ResumeUploadRequest.user_id req with Some u => u | None => "" end
             else uuid_answer env h in
    match rows with
    | [] => HttpOk (BGeneric "Resume uploaded successfully"
                             (GDict [("user_id", VStr u); ("resume_id", VNull)]))
    | r :: _ =>
        match dict_get "id" r with
        | Some v => HttpOk (BGeneric "Resume uploaded successfully"
                                     (GDict [("user_id", VStr u); ("resume_id", v)]))
        | None => HttpErr 500 "'id'"
        end
    end.
Proof.
  intros Hsb Hins.
  unfold handle; simpl; unfold upload_resume, guard_supabase; rewrite Hsb; simpl.
  unfold try_except_500, bind, db_execute, uuid4, ret, first_id, getitem, raise.
  destruct (truthy_str (ResumeUploadRequest.user_id req)); simpl in *;
    rewrite ?app_nil_r in *; rewrite Hins; simpl;
    destruct rows as [|r rows]; simpl; try reflexivity;
    destruct (dict_get "id" r); reflexivity.
Qed.

Lemma upload_resume_reply_witness :
  fst (handle cfg_full (PostUploadResume (ResumeUploadRequest.mk None "cv"))
              env_insert_no_id []) = HttpErr 500 "'id'" /\
  fst (handle cfg_full (PostUploadResume (ResumeUploadRequest.mk None "cv"))
              (demo_env "x") []) =
    HttpOk (BGeneric "Resume uploaded successfully"
                     (GDict [("user_id", VStr "generated-uuid"); ("resume_id", VInt 42)])).
Proof.
  split.
  - exact (upload_resume_reply cfg_full (ResumeUploadRequest.mk None "cv") env_insert_no_id []
             [[("created", VBool true)]] eq_refl eq_refl).
  - exact (upload_resume_reply cfg_full (ResumeUploadRequest.mk None "cv") (demo_env "x") []
             [[("id", VInt 42)]] eq_refl eq_refl).
Defined.

(** [upload_job_description] makes exactly one call, an insert of one
    [job_descriptions] row holding the description; it replies with the
    id of the first returned row, or [None] when the store returned no
    row, and a first row without ["id"] gives a 500 "'id'". *)
Theorem upload_job_description_reply cfg req env h :
  supabase_ready cfg = true ->
  let ins := DInsert "job_descriptions"
               (PDict [("description", VStr (JobDescriptionUploadRequest.description req))]) in
  handle cfg (PostUploadJobDescription req) env h =
    (match db_answer env h ins with
     | inl msg => HttpErr 500 msg
     | inr [] => HttpOk (BGeneric "Job description uploaded successfully"
                                  (GDict [("job_id", VNull)]))
     | inr (r :: _) =>
         match dict_get "id" r with
         | Some v => HttpOk (BGeneric "Job description uploaded successfully"
                                      (GDict [("job_id", v)]))
         | None => HttpErr 500 "'id'"
         end
     end,
     [EDb ins (db_answer env h ins)]).
Proof.
  intros Hsb ins; unfold ins; clear ins.
  unfold handle; simpl; unfold upload_job_description, guard_supabase; rewrite Hsb; simpl.
  unfold try_except_500, bind, db_execute, ret, first_id, getitem, raise.
  destruct (db_answer env h _) as [msg|[|r rows]]; simpl; try reflexivity.
  destruct (dict_get "id" r); reflexivity.
Qed.

Lemma upload_job_description_reply_witness :
  fst (handle cfg_full (PostUploadJobDescription (JobDescriptionUploadRequest.mk "SRE"))
              (demo_env "x") []) =
    HttpOk (BGeneric "Job description uploaded successfully" (GDict [("job_id", VInt 42)])).
Proof.
  rewrite (upload_job_description_reply cfg_full (JobDescriptionUploadRequest.mk "SRE")
             (demo_env "x") [] eq_refl); reflexivity.
Defined.

(** ** Pass-through endpoints *)

(** [insert_data], [update_data] and [delete_data] each make exactly one
    database call on the named table (update and delete matching the one
    column-value equality given) and reply with the store's rows as they
    are, or 500 with the store's error text. *)
Theorem generic_mutations_single_call cfg env h :
  supabase_ready cfg = true ->
  (forall r : InsertDataRequest.t,
     handle cfg (PostInsert r) env h =
       let q := DInsert (InsertDataRequest.table r) (InsertDataRequest.data r) in
       (generic_reply ("Data inserted into " ++ InsertDataRequest.table r) (db_answer env h q),
        [EDb q (db_answer env h q)])) /\
  (forall r : UpdateDataRequest.t,
     handle cfg (PostUpdate r) env h =
       let q := DUpdate (UpdateDataRequest.table r) (UpdateDataRequest.data r)
                        (UpdateDataRequest.match_column r) (UpdateDataRequest.match_value r) in
       (generic_reply ("Data updated in " ++ UpdateDataRequest.table r) (db_answer env h q),
        [EDb q (db_answer env h q)])) /\
  (forall r : DeleteDataRequest.t,
     handle cfg (PostDelete r) env h =
       let q := DDelete (DeleteDataRequest.table r) (DeleteDataRequest.match_column r)
                        (DeleteDataRequest.match_value r) in
       (generic_reply ("Data deleted from " ++ DeleteDataRequest.table r) (db_answer env h q),
        [EDb q (db_answer env h q)])).
Proof.
  intro Hsb; repeat split; intro r;
    unfold handle; simpl;
    unfold insert_data, update_data, delete_data, guard_supabase; rewrite Hsb; simpl;
    unfold try_except_500, bind, db_execute, ret;
    destruct (db_answer env h _); reflexivity.
Qed.

Lemma generic_mutations_single_call_witness :
  handle cfg_full (PostDelete (DeleteDataRequest.mk "resumes" "user_id" (VStr "alice")))
         (demo_env "x") [] =
    (HttpOk (BGeneric "Data deleted from resumes" (GRows [])),
     [EDb (DDelete "resumes" "user_id" (VStr "alice")) (inr [])]).
Proof.
  destruct (generic_mutations_single_call cfg_full (demo_env "x") [] eq_refl)
    as [_ [_ Hd]].
  rewrite Hd; reflexivity.
Defined.

(** [execute_raw_sql] makes exactly one call, to the [run_sql_query]
    procedure with the SQL text as given and the params dict, an absent
    or empty params being sent as the empty dict; it replies with the
    returned rows as they are, or 500 with the store's error text. *)
Theorem execute_raw_sql_single_call cfg req env h :
  supabase_ready cfg = true ->
  let q := DRpc "run_sql_query"
             [("sql_query", AVal (VStr (ExecuteRawSQLRequest.query req)));
              ("params", ADict (match ExecuteRawSQLRequest.params req with
                                | Some p => p | None => [] end))] in
  handle cfg (PostExecuteSQL req) env h =
    (generic_reply "SQL query executed successfully" (db_answer env h q),
     [EDb q (db_answer env h q)]).
Proof.
  intros Hsb q; unfold q; clear q.
  unfold handle; simpl; unfold execute_raw_sql, guard_supabase; rewrite Hsb; simpl.
  unfold try_except_500, bind, db_execute, ret.
  destruct (ExecuteRawSQLRequest.params req) as [[|p ps]|]; simpl;
    destruct (db_answer env h _); reflexivity.
Qed.

Lemma execute_raw_sql_single_call_witness :
  snd (handle cfg_full (PostExecuteSQL (ExecuteRawSQLRequest.mk "select 1" None))
              (demo_env "x") []) =
    [EDb (DRpc "run_sql_query" [("sql_query", AVal (VStr "select 1")); ("params", ADict [])])
         (inr [])].
Proof.
  rewrite (execute_raw_sql_single_call cfg_full (ExecuteRawSQLRequest.mk "select 1" None)
             (demo_env "x") [] eq_refl); reflexivity.
Defined.

(** [list_tables] and [get_schema] each make exactly one call, to the
    fixed procedure [get_tables] resp. [get_schema_info] with no
    arguments, and reply with its result as it is, or 500 with the
    store's error text. *)
Theorem fixed_procedures_single_call cfg env h :
  supabase_ready cfg = true ->
  handle cfg GetTables env h =
    (generic_reply "Tables retrieved successfully" (db_answer env h (DRpc "get_tables" [])),
     [EDb (DRpc "get_tables" []) (db_answer env h (DRpc "get_tables" []))]) /\
  handle cfg GetSchema env h =
    (generic_reply "Schema information retrieved successfully"
                   (db_answer env h (DRpc "get_schema_info" [])),
     [EDb (DRpc "get_schema_info" []) (db_answer env h (DRpc "get_schema_info" []))]).
Proof.
  intro Hsb; split;
    unfold handle; simpl; unfold list_tables, get_schema, guard_supabase; rewrite Hsb; simpl;
    unfold try_except_500, bind, db_execute, ret;
    destruct (db_answer env h _); reflexivity.
Qed.

Lemma fixed_procedures_single_call_witness :
  fst (handle cfg_full GetTables (demo_env "x") []) =
    HttpOk (BGeneric "Tables retrieved successfully" (GRows [])).
Proof.
  destruct (fixed_procedures_single_call cfg_full (demo_env "x") [] eq_refl) as [Ht _].
  rewrite Ht; reflexivity.
Defined.
